(** * vspreview.toolbars.comp.settings

    A shallow embedding of [src/vspreview/toolbars/comp/settings.py]:

<<
    class CompSettings(AbstractToolbarSettings):
        __slots__ = ()

        def setup_ui(self) -> None:
            super().setup_ui()

        def set_defaults(self) -> None:
            pass
>>

    The module also imports [QVBoxLayout] from the toolkit and does not use
    it.

    A Python method that returns [None] is a computation over the state of
    the program that either returns or raises.  The class statement is a
    function from the class it extends ([super()]) to the methods it
    defines.  The base class [AbstractToolbarSettings] lives in
    [vspreview.core], which is not among the sources: it is a parameter of
    everything below. *)

From stdpp Require Import base strings gmap list.

(** ** Program state *)

(** What a call on [self] can observe and change: the attributes bound on the
    instance, by name, and the state of the toolkit that hosts the widget.
    The values of attributes and the toolkit's state are left open. *)
Record World (Val Host : Type) := mkWorld {
  attrs : gmap string Val;
  host : Host
}.
Arguments mkWorld {Val Host} _ _.
Arguments attrs {Val Host} _.
Arguments host {Val Host} _.

(** How a call ends: it returns a value, or an exception leaves it.  Either
    way the state reached so far stays. *)
Inductive outcome (W Exn A : Type) : Type :=
  | Returned (a : A) (w : W)
  | Raised (e : Exn) (w : W).
Arguments Returned {W Exn A} _ _.
Arguments Raised {W Exn A} _ _.

Definition final_world {W Exn A} (o : outcome W Exn A) : W :=
  match o with Returned _ w => w | Raised _ w => w end.

Definition raises {W Exn A} (o : outcome W Exn A) : bool :=
  match o with Returned _ _ => false | Raised _ _ => true end.

(** ** Two readings of a call *)

(** [Run]: the call as a function of the state, which one can evaluate. *)
Definition Run (W Exn A : Type) : Type := W → outcome W Exn A.

#[export] Instance Run_ret {W Exn} : MRet (Run W Exn) :=
  λ A a w, Returned a w.

#[export] Instance Run_bind {W Exn} : MBind (Run W Exn) :=
  λ A B f m w,
    match m w with
    | Returned a w' => f a w'
    | Raised e w' => Raised e w'
    end.

(** [Rel]: the call as a relation between the state and its outcomes, for a
    base class whose methods may depend on more than the state, or may not
    end at all. *)
Definition Rel (W Exn A : Type) : Type := W → outcome W Exn A → Prop.

#[export] Instance Rel_ret {W Exn} : MRet (Rel W Exn) :=
  λ A a w o, o = Returned a w.

#[export] Instance Rel_bind {W Exn} : MBind (Rel W Exn) :=
  λ A B f m w o,
    (∃ a w', m w (Returned a w') ∧ f a w' o) ∨
    (∃ e w', m w (Raised e w') ∧ o = Raised e w').

(** The relation of a function. *)
Definition graph {W Exn A} (m : Run W Exn A) : Rel W Exn A :=
  λ w o, m w = o.

(** ** The classes *)

Module AbstractToolbarSettings.
(** What [CompSettings] uses of the class it extends: the slots of an
    instance and the two hooks, bound to [self]. *)
Record t (M : Type → Type) := Class {
  slots : list string;
  setup_ui : M unit;
  set_defaults : M unit
}.
Arguments Class {M} _ _ _.
Arguments slots {M} _.
Arguments setup_ui {M} _.
Arguments set_defaults {M} _.
End AbstractToolbarSettings.

Module CompSettings.
Section Body.
Context {M : Type → Type} `{!MRet M, !MBind M}.
Variable super : AbstractToolbarSettings.t M.

(** [__slots__ = ()] *)
Definition slots : list string := [].

(** [def setup_ui(self) -> None: super().setup_ui()]: the call is an
    expression statement, its value is dropped, and the body falls off
    its end, returning [None]. *)
Definition setup_ui : M unit :=
  AbstractToolbarSettings.setup_ui super ;; mret ().

(** [def set_defaults(self) -> None: pass] *)
Definition set_defaults : M unit := mret ().

(** The class the statement builds: an instance has the slots of the
    base followed by those declared here, and the two hooks are the
    overrides. *)
Definition cls : AbstractToolbarSettings.t M :=
  AbstractToolbarSettings.Class
    (AbstractToolbarSettings.slots super ++ slots)
    setup_ui
    set_defaults.
End Body.
End CompSettings.

(** ** The host *)

(** The two hooks the host calls on a panel. *)
Inductive hook := SetupUi | SetDefaults.

#[export] Instance hook_eq_dec : EqDecision hook.
Proof. solve_decision. Defined.

Definition is_setup (h : hook) : bool :=
  match h with SetupUi => true | SetDefaults => false end.

Section Host.
Context {M : Type → Type} `{!MRet M, !MBind M}.

(** A call through the instance: the method of its class. *)
Definition invoke (c : AbstractToolbarSettings.t M) (h : hook) : M unit :=
  match h with
  | SetupUi => AbstractToolbarSettings.setup_ui c
  | SetDefaults => AbstractToolbarSettings.set_defaults c
  end.

(** The host calls hooks one after the other; an exception ends the run. *)
Fixpoint run_hooks (c : AbstractToolbarSettings.t M) (hs : list hook) : M unit :=
  match hs with
  | [] => mret ()
  | h :: hs' => invoke c h ;; run_hooks c hs'
  end.
End Host.

(** The record of a run: each call made, the state it started from and how
    it ended. *)
Fixpoint hook_log {W Exn} (c : AbstractToolbarSettings.t (Run W Exn))
    (hs : list hook) (w : W) : list (hook * W * outcome W Exn unit) :=
  match hs with
  | [] => []
  | h :: hs' =>
      (h, w, invoke c h w) ::
      match invoke c h w with
      | Returned _ w' => hook_log c hs' w'
      | Raised _ _ => []
      end
  end.

(** A class read as relations: the graphs of its methods. *)
Definition rel_of {W Exn} (c : AbstractToolbarSettings.t (Run W Exn))
    : AbstractToolbarSettings.t (Rel W Exn) :=
  AbstractToolbarSettings.Class
    (AbstractToolbarSettings.slots c)
    (graph (AbstractToolbarSettings.setup_ui c))
    (graph (AbstractToolbarSettings.set_defaults c)).

(** [Calls]: the call as the methods of the base class it reaches, by name
    and in order, beside the value it returns.  Nothing raises in this
    reading. *)
Definition Calls (A : Type) : Type := list string * A.

#[export] Instance Calls_ret : MRet Calls :=
  λ A a, ([], a).

#[export] Instance Calls_bind : MBind Calls :=
  λ A B f m, ((m.1 ++ (f m.2).1), (f m.2).2).


(** ** Properties of calls *)

(** Calling twice in a row ends as calling once. *)
Definition idempotent {W Exn} (m : Run W Exn unit) : Prop :=
  ∀ w, (m ;; m) w = m w.

(** Two runs from equal states end alike. *)
Definition deterministic {W Exn A} (m : Rel W Exn A) : Prop :=
  ∀ w1 w2 o1 o2, w1 = w2 → m w1 o1 → m w2 o2 → o1 = o2.

(** Every attribute bound on the instance is a slot of its class. *)
Definition within_slots {M Val Host} (c : AbstractToolbarSettings.t M)
    (w : World Val Host) : Prop :=
  dom (attrs w) ⊆ list_to_set (AbstractToolbarSettings.slots c).

(** A call keeps a property of the state, however it ends. *)
Definition keeps {W Exn} (P : W → Prop) (m : Run W Exn unit) : Prop :=
  ∀ w, P w → P (final_world (m w)).

(** ** Base classes to run the model on *)

(** The state of these: an attribute holds the number of a toolkit object,
    the toolkit counts the layout containers it has made, an exception is
    its name. *)
Abbreviation QtWorld := (World nat nat).
Abbreviation QtRun := (Run QtWorld string).

(** Modelled from the spec: [AbstractToolbarSettings.setup_ui] of
    [vspreview.core], which is not among the sources.  The spec documents one
    effect of it, establishing a base layout container: the toolkit makes a
    container and the instance binds it as [vlayout]. *)
Definition new_vlayout : QtRun unit :=
  λ w, Returned () (mkWorld (<["vlayout" := host w]> (attrs w)) (S (host w))).

(** A setup that binds one container made beforehand. *)
Definition shared_vlayout : QtRun unit :=
  λ w, Returned () (mkWorld (<["vlayout" := 0]> (attrs w)) (host w)).

(** A setup the toolkit refuses. *)
Definition refused : QtRun unit :=
  λ w, Raised "RuntimeError" w.

(** A base [set_defaults] that applies a default. *)
Definition default_margin : QtRun unit :=
  λ w, Returned () (mkWorld (<["margin" := 9]> (attrs w)) (host w)).

Definition layout_base : AbstractToolbarSettings.t QtRun :=
  AbstractToolbarSettings.Class ["vlayout"] new_vlayout (mret ()).

Definition shared_base : AbstractToolbarSettings.t QtRun :=
  AbstractToolbarSettings.Class ["vlayout"] shared_vlayout (mret ()).

Definition refusing_base : AbstractToolbarSettings.t QtRun :=
  AbstractToolbarSettings.Class ["vlayout"] refused (mret ()).

Definition defaulting_base : AbstractToolbarSettings.t QtRun :=
  AbstractToolbarSettings.Class ["vlayout"; "margin"] new_vlayout default_margin.


(** A base class whose setup never ends. *)
Definition hanging_base : AbstractToolbarSettings.t (Rel QtWorld string) :=
  AbstractToolbarSettings.Class ["vlayout"] (λ _ _, False) (mret ()).

(** A panel just allocated: nothing bound, nothing made. *)
Definition blank : QtWorld := mkWorld ∅ 0.

(** * Proofs *)

(** ** The overrides, evaluated *)

Section Evaluated.
Context {W Exn : Type}.
Implicit Types (base : AbstractToolbarSettings.t (Run W Exn)) (w : W).

Lemma then_eval (m k : Run W Exn unit) w :
  (m ;; k) w =
  match m w with
  | Returned _ w' => k w'
  | Raised e w' => Raised e w'
  end.
Proof. reflexivity. Qed.

(** Returning [None] after a call that returns [None] adds nothing. *)
Lemma then_return_None (m : Run W Exn unit) w : (m ;; mret ()) w = m w.
Proof.
  unfold mbind, Run_bind, mret, Run_ret.
  destruct (m w) as [[] w'|e w']; reflexivity.
Qed.

Lemma setup_ui_eval base w :
  CompSettings.setup_ui base w = AbstractToolbarSettings.setup_ui base w.
Proof. unfold CompSettings.setup_ui. apply then_return_None. Qed.

Lemma set_defaults_eval w :
  CompSettings.set_defaults (M := Run W Exn) w = Returned () w.
Proof. reflexivity. Qed.

Lemma invoke_setup_ui base w :
  invoke (CompSettings.cls base) SetupUi w = invoke base SetupUi w.
Proof. apply setup_ui_eval. Qed.

Lemma invoke_set_defaults base w :
  invoke (CompSettings.cls base) SetDefaults w = Returned () w.
Proof. reflexivity. Qed.

Lemma run_hooks_cons (c : AbstractToolbarSettings.t (Run W Exn)) h hs w :
  run_hooks c (h :: hs) w =
  match invoke c h w with
  | Returned _ w' => run_hooks c hs w'
  | Raised e w' => Raised e w'
  end.
Proof. reflexivity. Qed.

(** A [set_defaults] call can be struck from a run. *)
Lemma run_hooks_skip_set_defaults base hs w :
  run_hooks (CompSettings.cls base) (SetDefaults :: hs) w =
  run_hooks (CompSettings.cls base) hs w.
Proof. reflexivity. Qed.

Lemma run_hooks_erase base pre post w :
  run_hooks (CompSettings.cls base) (pre ++ SetDefaults :: post) w =
  run_hooks (CompSettings.cls base) (pre ++ post) w.
Proof.
  revert w. induction pre as [|h pre IH]; intros w; simpl app.
  - apply run_hooks_skip_set_defaults.
  - rewrite !run_hooks_cons.
    destruct (invoke (CompSettings.cls base) h w) as [[] w'|e w']; auto.
Qed.

(** Only the [setup_ui] calls of a run count. *)
Lemma run_hooks_filter base hs w :
  run_hooks (CompSettings.cls base) hs w =
  run_hooks (CompSettings.cls base) (filter is_setup hs) w.
Proof.
  revert w. induction hs as [|[] hs IH]; intros w.
  - reflexivity.
  - change (filter is_setup (SetupUi :: hs))
      with (SetupUi :: filter is_setup hs).
    rewrite !run_hooks_cons.
    destruct (invoke (CompSettings.cls base) SetupUi w) as [[] w'|e w']; auto.
  - rewrite run_hooks_skip_set_defaults. apply IH.
Qed.

(** One [setup_ui] call, as a run. *)
Lemma run_hooks_one_setup base w :
  run_hooks (CompSettings.cls base) [SetupUi] w =
  AbstractToolbarSettings.setup_ui base w.
Proof.
  rewrite run_hooks_cons, invoke_setup_ui. simpl.
  destruct (AbstractToolbarSettings.setup_ui base w) as [[] w'|e w'];
    reflexivity.
Qed.
End Evaluated.

(** ** The overrides, as relations *)

Section Related.
Context {W Exn : Type}.
Implicit Types (base : AbstractToolbarSettings.t (Rel W Exn)) (w : W).

Lemma setup_ui_rel base w (o : outcome W Exn unit) :
  CompSettings.setup_ui base w o ↔ AbstractToolbarSettings.setup_ui base w o.
Proof.
  unfold CompSettings.setup_ui, mbind, Rel_bind, mret, Rel_ret. split.
  - intros [([] & w' & Hb & ->)|(e & w' & Hb & ->)]; exact Hb.
  - destruct o as [[] w'|e w']; intros Hb.
    + left. exists (), w'. split; [exact Hb | reflexivity].
    + right. exists e, w'. split; [exact Hb | reflexivity].
Qed.

Lemma set_defaults_rel w (o : outcome W Exn unit) :
  CompSettings.set_defaults (M := Rel W Exn) w o ↔ o = Returned () w.
Proof. reflexivity. Qed.

(** The two readings agree on a base class that is a function. *)
Lemma setup_ui_graph (c : AbstractToolbarSettings.t (Run W Exn)) w o :
  CompSettings.setup_ui (rel_of c) w o ↔ graph (CompSettings.setup_ui c) w o.
Proof.
  rewrite setup_ui_rel. unfold graph. simpl.
  rewrite setup_ui_eval. reflexivity.
Qed.
End Related.

(** ** What the host observes *)

Section Observed.
Context {Val Host Exn : Type}.
Local Abbreviation W := (World Val Host).
Implicit Types (base : AbstractToolbarSettings.t (Run W Exn)) (w : W).

(** C1: in every host context where the setup of the base class succeeds,
    [setup_ui] called on a [CompSettings] panel does not raise and ends
    exactly as the setup of [AbstractToolbarSettings] alone ends: same
    returned value, same attributes, same toolkit state. *)
Theorem setup_ui_same_as_base base w :
  raises (AbstractToolbarSettings.setup_ui base w) = false →
  invoke (CompSettings.cls base) SetupUi w =
    AbstractToolbarSettings.setup_ui base w
  ∧ raises (invoke (CompSettings.cls base) SetupUi w) = false.
Proof.
  intros Hok. rewrite invoke_setup_ui. simpl. split; [reflexivity | exact Hok].
Qed.

(** C2: in every state of a panel, [set_defaults] returns [None] and leaves
    the state as it was: the whole state, so every attribute and the
    toolkit. *)
Theorem set_defaults_changes_nothing base w :
  invoke (CompSettings.cls base) SetDefaults w = Returned () w
  ∧ attrs (final_world (invoke (CompSettings.cls base) SetDefaults w)) = attrs w
  ∧ host (final_world (invoke (CompSettings.cls base) SetDefaults w)) = host w.
Proof. rewrite invoke_set_defaults. simpl. auto. Qed.

(** Every [set_defaults] call recorded in a run returned in the state it
    started from. *)
Lemma hook_log_set_defaults base hs w w0 o :
  (SetDefaults, w0, o) ∈ hook_log (CompSettings.cls base) hs w →
  o = Returned () w0.
Proof.
  revert w. induction hs as [|h hs IH]; intros w Hin; simpl in Hin.
  - apply elem_of_nil in Hin. contradiction.
  - apply elem_of_cons in Hin. destruct Hin as [Heq|Hin].
    + injection Heq as <- <- ->. reflexivity.
    + destruct (invoke (CompSettings.cls base) h w) as [[] w'|e w'].
      * exact (IH _ Hin).
      * apply elem_of_nil in Hin. contradiction.
Qed.

(** C3: in a run of [setup_ui] and [set_defaults] calls in any order and
    number, each [set_defaults] call returns without raising in the state
    it started from, and striking it from the run changes nothing; after
    construction, a successful [setup_ui] and two [set_defaults] calls,
    nothing was raised and the state is the one [setup_ui] left, after each
    call. *)
Theorem set_defaults_any_number_of_times base :
  (∀ hs w w0 o,
      (SetDefaults, w0, o) ∈ hook_log (CompSettings.cls base) hs w →
      o = Returned () w0)
  ∧ (∀ pre post w,
      run_hooks (CompSettings.cls base) (pre ++ SetDefaults :: post) w =
      run_hooks (CompSettings.cls base) (pre ++ post) w)
  ∧ (∀ w w1,
      invoke (CompSettings.cls base) SetupUi w = Returned () w1 →
      hook_log (CompSettings.cls base) [SetupUi; SetDefaults; SetDefaults] w =
        [(SetupUi, w, Returned () w1);
         (SetDefaults, w1, Returned () w1);
         (SetDefaults, w1, Returned () w1)]).
Proof.
  split; [|split].
  - intros hs w w0 o. apply hook_log_set_defaults.
  - intros pre post w. apply run_hooks_erase.
  - intros w w1 Hsetup. cbn [hook_log]. rewrite Hsetup.
    rewrite !invoke_set_defaults. reflexivity.
Qed.

(** C4: [set_defaults] never raises; [setup_ui] raises exactly when the
    setup of the base class raises, with the same exception and in the same
    state. *)
Theorem raises_iff_base_raises base w :
  raises (invoke (CompSettings.cls base) SetDefaults w) = false
  ∧ (∀ e w',
      invoke (CompSettings.cls base) SetupUi w = Raised e w' ↔
      AbstractToolbarSettings.setup_ui base w = Raised e w')
  ∧ raises (invoke (CompSettings.cls base) SetupUi w) =
      raises (AbstractToolbarSettings.setup_ui base w).
Proof.
  rewrite invoke_setup_ui. simpl. split; [reflexivity | split].
  - intros e w'. reflexivity.
  - reflexivity.
Qed.

(** A property of the state that the setup of the base class keeps is kept
    by every run of hooks on a [CompSettings] panel. *)
Lemma run_hooks_keeps (P : W → Prop) base :
  keeps P (AbstractToolbarSettings.setup_ui base) →
  ∀ hs, keeps P (run_hooks (CompSettings.cls base) hs).
Proof.
  intros Hbase hs. induction hs as [|[] hs IH]; intros w Hw.
  - exact Hw.
  - rewrite run_hooks_cons, invoke_setup_ui. simpl.
    specialize (Hbase w Hw).
    destruct (AbstractToolbarSettings.setup_ui base w) as [[] w'|e w'];
      simpl in *; auto.
  - rewrite run_hooks_skip_set_defaults. auto.
Qed.

Lemma cls_slots (M : Type → Type) `{!MRet M, !MBind M}
    (super : AbstractToolbarSettings.t M) :
  AbstractToolbarSettings.slots (CompSettings.cls super) =
  AbstractToolbarSettings.slots super.
Proof. simpl. unfold CompSettings.slots. apply app_nil_r. Qed.

(** C5: [CompSettings] declares no slot, so the slots of an instance are
    those of the base class; a state fits the one layout exactly when it
    fits the other, as the state the inherited constructor leaves does; and
    if the setup of the base class binds only slots, every run of
    [setup_ui] and [set_defaults] calls on the panel binds only slots. *)
Theorem no_slots_beyond_base base :
  CompSettings.slots = []
  ∧ AbstractToolbarSettings.slots (CompSettings.cls base) =
      AbstractToolbarSettings.slots base
  ∧ (∀ w, within_slots (CompSettings.cls base) w ↔ within_slots base w)
  ∧ (keeps (within_slots base) (AbstractToolbarSettings.setup_ui base) →
     ∀ hs, keeps (within_slots (CompSettings.cls base))
             (run_hooks (CompSettings.cls base) hs)).
Proof.
  split; [reflexivity|]. split; [apply cls_slots|]. split.
  - intros w. unfold within_slots. rewrite cls_slots. reflexivity.
  - intros Hbase hs w. unfold within_slots. rewrite cls_slots.
    apply (run_hooks_keeps (within_slots base) base Hbase hs w).
Qed.
End Observed.

(** ** Repeated calls *)

Section Repeated.
Context {Val Host Exn : Type}.
Local Abbreviation W := (World Val Host).
Implicit Types (base : AbstractToolbarSettings.t (Run W Exn)) (w : W).

(** The order of the calls of a run does not count. *)
Lemma run_hooks_Permutation base hs1 hs2 :
  hs1 ≡ₚ hs2 →
  ∀ w, run_hooks (CompSettings.cls base) hs1 w =
       run_hooks (CompSettings.cls base) hs2 w.
Proof.
  induction 1 as [|h hs1 hs2 _ IH|h1 h2 hs|hs1 hs2 hs3 _ IH1 _ IH2]; intros w.
  - reflexivity.
  - rewrite !run_hooks_cons.
    destruct (invoke (CompSettings.cls base) h w) as [[] w'|e w']; auto.
  - destruct h1, h2; reflexivity.
  - rewrite IH1. apply IH2.
Qed.

(** Once the setup of the base class has returned in a state, and a second
    setup would change nothing, no run of hooks changes it. *)
Lemma run_hooks_settled base w1 hs :
  AbstractToolbarSettings.setup_ui base w1 = Returned () w1 →
  run_hooks (CompSettings.cls base) hs w1 = Returned () w1.
Proof.
  intros Hfix. induction hs as [|[] hs IH].
  - reflexivity.
  - rewrite run_hooks_cons, invoke_setup_ui. simpl. rewrite Hfix. exact IH.
  - rewrite run_hooks_skip_set_defaults. exact IH.
Qed.

Lemma idempotent_settles (m : Run W Exn unit) w w1 :
  idempotent m → m w = Returned () w1 → m w1 = Returned () w1.
Proof.
  intros Hid Hm. specialize (Hid w).
  unfold mbind, Run_bind in Hid. rewrite Hm in Hid. exact Hid.
Qed.

Lemma run_hooks_with_setup base hs w :
  idempotent (AbstractToolbarSettings.setup_ui base) →
  SetupUi ∈ hs →
  run_hooks (CompSettings.cls base) hs w =
  AbstractToolbarSettings.setup_ui base w.
Proof.
  intros Hid. induction hs as [|[] hs IH]; intros Hin.
  - apply elem_of_nil in Hin. contradiction.
  - rewrite run_hooks_cons, invoke_setup_ui. simpl.
    destruct (AbstractToolbarSettings.setup_ui base w) as [[] w1|e w1] eqn:Hm.
    + apply run_hooks_settled. exact (idempotent_settles _ _ _ Hid Hm).
    + reflexivity.
  - rewrite run_hooks_skip_set_defaults. apply IH.
    apply elem_of_cons in Hin. destruct Hin as [Heq|Hin]; [discriminate | exact Hin].
Qed.

Lemma run_hooks_without_setup base hs w :
  SetupUi ∉ hs → run_hooks (CompSettings.cls base) hs w = Returned () w.
Proof.
  induction hs as [|[] hs IH]; intros Hnin.
  - reflexivity.
  - exfalso. apply Hnin. apply elem_of_cons. left. reflexivity.
  - rewrite run_hooks_skip_set_defaults. apply IH.
    intros Hin. apply Hnin. apply elem_of_cons. right. exact Hin.
Qed.

Lemma setup_ui_idempotent_iff base :
  idempotent (CompSettings.setup_ui base) ↔
  idempotent (AbstractToolbarSettings.setup_ui base).
Proof.
  unfold idempotent.
  split; intros Hid w; specialize (Hid w); rewrite then_eval in Hid.
  - rewrite then_eval. rewrite !setup_ui_eval in Hid.
    destruct (AbstractToolbarSettings.setup_ui base w) as [[] w1|e w1];
      [rewrite setup_ui_eval in Hid|]; exact Hid.
  - rewrite then_eval. rewrite !setup_ui_eval.
    destruct (AbstractToolbarSettings.setup_ui base w) as [[] w1|e w1];
      [rewrite setup_ui_eval|]; exact Hid.
Qed.

(** C6, as the code has it: [set_defaults] called twice ends as called once;
    a run of hooks ends as its [setup_ui] calls alone end, so the calls of a
    run may come in any order; [setup_ui] called twice ends as called once
    exactly when that is so of the setup of the base class, and then every
    run with a [setup_ui] call ends as one [setup_ui] call, and every run
    without one leaves the state. *)
Theorem repeated_hooks base :
  idempotent (AbstractToolbarSettings.set_defaults (CompSettings.cls base))
  ∧ (∀ hs w,
      run_hooks (CompSettings.cls base) hs w =
      run_hooks (CompSettings.cls base) (filter is_setup hs) w)
  ∧ (∀ hs1 hs2 w,
      hs1 ≡ₚ hs2 →
      run_hooks (CompSettings.cls base) hs1 w =
      run_hooks (CompSettings.cls base) hs2 w)
  ∧ (idempotent (AbstractToolbarSettings.setup_ui (CompSettings.cls base)) ↔
     idempotent (AbstractToolbarSettings.setup_ui base))
  ∧ (idempotent (AbstractToolbarSettings.setup_ui base) →
     ∀ hs w,
       SetupUi ∈ hs →
       run_hooks (CompSettings.cls base) hs w =
       run_hooks (CompSettings.cls base) [SetupUi] w)
  ∧ (∀ hs w,
      SetupUi ∉ hs → run_hooks (CompSettings.cls base) hs w = Returned () w).
Proof.
  repeat split.
  - intros hs w. apply run_hooks_filter.
  - intros hs1 hs2 w Hp. apply run_hooks_Permutation. exact Hp.
  - apply setup_ui_idempotent_iff.
  - apply setup_ui_idempotent_iff.
  - intros Hid hs w Hin. rewrite run_hooks_one_setup.
    apply run_hooks_with_setup; assumption.
  - intros hs w. apply run_hooks_without_setup.
Qed.

(** C8: [set_defaults] never reaches the base class: whatever
    [set_defaults] the base class has, a call through a [CompSettings] panel
    returns in the state it started from, so wherever the base class's
    [set_defaults] would change the state or raise, the panel does
    otherwise; [setup_ui], beside it, ends as the base class's does. *)
Theorem set_defaults_skips_base base w :
  invoke (CompSettings.cls base) SetDefaults w = Returned () w
  ∧ (AbstractToolbarSettings.set_defaults base w ≠ Returned () w →
     invoke (CompSettings.cls base) SetDefaults w ≠
     AbstractToolbarSettings.set_defaults base w)
  ∧ (∀ base',
      invoke (CompSettings.cls base') SetDefaults w =
      invoke (CompSettings.cls base) SetDefaults w)
  ∧ invoke (CompSettings.cls base) SetupUi w =
      AbstractToolbarSettings.setup_ui base w.
Proof.
  rewrite invoke_setup_ui. simpl. repeat split.
  intros Hbase Heq. apply Hbase. symmetry. exact Heq.
Qed.
End Repeated.

(** ** Two runs from one state *)

Section Determined.
Context {Val Host Exn : Type}.
Local Abbreviation W := (World Val Host).

(** C9: if two runs of the base class's setup from equal states end alike,
    then two runs of either hook of a [CompSettings] panel from equal states
    end alike: same state, and both returned or both raised the same
    exception. *)
Theorem hooks_deterministic (base : AbstractToolbarSettings.t (Rel W Exn)) :
  deterministic (AbstractToolbarSettings.setup_ui base) →
  ∀ h, deterministic (invoke (CompSettings.cls base) h).
Proof.
  intros Hbase [] w1 w2 o1 o2 Hw H1 H2; simpl in H1, H2.
  - apply setup_ui_rel in H1. apply setup_ui_rel in H2.
    exact (Hbase w1 w2 o1 o2 Hw H1 H2).
  - apply set_defaults_rel in H1. apply set_defaults_rel in H2.
    congruence.
Qed.
End Determined.

(** ** The model on the base classes above *)

Lemma new_vlayout_keeps_slots : keeps (within_slots layout_base) new_vlayout.
Proof.
  intros w Hw. unfold within_slots in *. simpl in *.
  rewrite dom_insert. apply union_subseteq. split; [|exact Hw].
  apply union_subseteq_l.
Qed.

Lemma shared_vlayout_idempotent : idempotent shared_vlayout.
Proof.
  intros w. rewrite then_eval. unfold shared_vlayout. simpl.
  rewrite insert_insert_eq. reflexivity.
Qed.

Lemma default_margin_changes_blank : default_margin blank ≠ Returned () blank.
Proof.
  intros Heq.
  apply (f_equal (λ o, attrs (final_world o) !! "margin")) in Heq.
  vm_compute in Heq. discriminate.
Qed.

Lemma graph_deterministic {W Exn A} (m : Run W Exn A) : deterministic (graph m).
Proof. intros w1 w2 o1 o2 -> <- <-. reflexivity. Qed.

(** A refused setup is refused through the panel, in the state it had. *)
Example refused_setup_ui :
  invoke (CompSettings.cls refusing_base) SetupUi blank =
  Raised "RuntimeError" blank.
Proof. reflexivity. Qed.

(** The panel does not apply the default the base class would. *)
Example defaults_not_applied :
  attrs (final_world (invoke (CompSettings.cls defaulting_base) SetDefaults blank))
    !! "margin" = None
  ∧ attrs (final_world (invoke defaulting_base SetDefaults blank))
    !! "margin" = Some 9.
Proof. split; reflexivity. Qed.

Lemma setup_ui_same_as_base_on_blank :
  invoke (CompSettings.cls layout_base) SetupUi blank =
    AbstractToolbarSettings.setup_ui layout_base blank
  ∧ raises (invoke (CompSettings.cls layout_base) SetupUi blank) = false.
Proof. apply (setup_ui_same_as_base layout_base blank). reflexivity. Defined.

Lemma setup_then_defaults_twice_on_blank :
  hook_log (CompSettings.cls layout_base)
    [SetupUi; SetDefaults; SetDefaults] blank =
  [(SetupUi, blank, Returned () (mkWorld (<["vlayout" := 0]> ∅) 1));
   (SetDefaults, mkWorld (<["vlayout" := 0]> ∅) 1,
     Returned () (mkWorld (<["vlayout" := 0]> ∅) 1));
   (SetDefaults, mkWorld (<["vlayout" := 0]> ∅) 1,
     Returned () (mkWorld (<["vlayout" := 0]> ∅) 1))].
Proof.
  apply (proj2 (proj2 (set_defaults_any_number_of_times layout_base)) blank).
  reflexivity.
Defined.

Lemma slots_kept_on_layout_base :
  AbstractToolbarSettings.slots (CompSettings.cls layout_base) = ["vlayout"]
  ∧ within_slots (CompSettings.cls layout_base)
      (final_world
         (run_hooks (CompSettings.cls layout_base)
            [SetupUi; SetDefaults; SetupUi] blank)).
Proof.
  destruct (no_slots_beyond_base layout_base) as (_ & Hslots & _ & Hkeeps).
  split; [exact Hslots|].
  apply (Hkeeps new_vlayout_keeps_slots).
  unfold within_slots. simpl. rewrite dom_empty. apply empty_subseteq.
Defined.

Lemma repeated_hooks_on_shared_base :
  run_hooks (CompSettings.cls shared_base)
    [SetDefaults; SetupUi; SetupUi; SetDefaults] blank =
  run_hooks (CompSettings.cls shared_base) [SetupUi] blank.
Proof.
  destruct (repeated_hooks shared_base) as (_ & _ & _ & _ & Hone & _).
  apply (Hone shared_vlayout_idempotent).
  apply elem_of_cons. right. apply elem_of_cons. left. reflexivity.
Defined.

(** C6, as the spec has it, fails where the setup of the base class makes a
    new layout container at each call: after two [setup_ui] calls the
    toolkit has made two containers, after one it has made one. *)
Lemma setup_ui_twice_differs :
  run_hooks (CompSettings.cls layout_base) [SetupUi; SetupUi] blank ≠
  run_hooks (CompSettings.cls layout_base) [SetupUi] blank.
Proof.
  intros Heq. apply (f_equal (λ o, host (final_world o))) in Heq.
  vm_compute in Heq. discriminate.
Qed.

Lemma set_defaults_skips_defaulting_base :
  invoke (CompSettings.cls defaulting_base) SetDefaults blank ≠
  AbstractToolbarSettings.set_defaults defaulting_base blank.
Proof.
  apply (set_defaults_skips_base defaulting_base blank).
  exact default_margin_changes_blank.
Defined.

Lemma hooks_deterministic_on_layout_base :
  deterministic (invoke (CompSettings.cls (rel_of layout_base)) SetupUi)
  ∧ deterministic (invoke (CompSettings.cls (rel_of layout_base)) SetDefaults).
Proof.
  split; apply (hooks_deterministic (rel_of layout_base));
    apply graph_deterministic.
Defined.

(** ** Whole runs *)

Section Runs.
Context {Val Host Exn : Type}.
Local Abbreviation W := (World Val Host).
Implicit Types (base : AbstractToolbarSettings.t (Run W Exn)) (w : W).

(** X1: a property of the state that the setup of the base class keeps
    holds at every point of a run of hooks on the panel that starts where
    it holds: in the state each call starts from and in the state each call
    ends in, returned or raised. *)
Theorem invariant_all_along (P : W → Prop) base hs w :
  keeps P (AbstractToolbarSettings.setup_ui base) →
  P w →
  ∀ h w0 o,
    (h, w0, o) ∈ hook_log (CompSettings.cls base) hs w →
    P w0 ∧ P (final_world o).
Proof.
  intros Hbase. revert w.
  induction hs as [|h' hs IH]; intros w Hw h w0 o Hin; simpl in Hin.
  - apply elem_of_nil in Hin. contradiction.
  - assert (Hstep : P (final_world (invoke (CompSettings.cls base) h' w))).
    { destruct h'.
      - rewrite invoke_setup_ui. apply Hbase. exact Hw.
      - rewrite invoke_set_defaults. exact Hw. }
    apply elem_of_cons in Hin. destruct Hin as [Heq|Hin].
    + injection Heq as -> -> ->. split; [exact Hw | exact Hstep].
    + destruct (invoke (CompSettings.cls base) h' w) as [[] w'|e w'].
      * exact (IH w' Hstep h w0 o Hin).
      * apply elem_of_nil in Hin. contradiction.
Qed.

(** X2: an exception that ends a run of hooks on the panel was raised by
    the setup of the base class: the run has a [setup_ui] call, and there is
    a state in which the base setup raised that exception and left that
    state. *)
Theorem exception_comes_from_base base hs w e w' :
  run_hooks (CompSettings.cls base) hs w = Raised e w' →
  SetupUi ∈ hs
  ∧ ∃ w0, AbstractToolbarSettings.setup_ui base w0 = Raised e w'.
Proof.
  revert w. induction hs as [|[] hs IH]; intros w Hrun.
  - discriminate.
  - split; [apply elem_of_cons; left; reflexivity|].
    rewrite run_hooks_cons, invoke_setup_ui in Hrun. simpl in Hrun.
    destruct (AbstractToolbarSettings.setup_ui base w) as [[] w1|e1 w1] eqn:Hb.
    + exact (proj2 (IH w1 Hrun)).
    + exists w. rewrite Hb. exact Hrun.
  - rewrite run_hooks_skip_set_defaults in Hrun.
    destruct (IH w Hrun) as [Hin Hex].
    split; [apply elem_of_cons; right; exact Hin | exact Hex].
Qed.
End Runs.

(** ** The calls a run makes *)




(** ** Runs of a base class that may not end *)

Section Unending.
Context {Val Host Exn : Type}.
Local Abbreviation W := (World Val Host).
Implicit Types (base : AbstractToolbarSettings.t (Rel W Exn)) (w : W).

Lemma run_hooks_rel_skip base hs w (o : outcome W Exn unit) :
  run_hooks (CompSettings.cls base) (SetDefaults :: hs) w o ↔
  run_hooks (CompSettings.cls base) hs w o.
Proof.
  simpl. unfold mbind, Rel_bind, CompSettings.set_defaults, mret, Rel_ret.
  split.
  - intros [(a & w' & Heq & Hrun)|(e & w' & Heq & _)].
    + injection Heq as _ <-. exact Hrun.
    + discriminate.
  - intros Hrun. left. exists (), w. split; [reflexivity | exact Hrun].
Qed.

(** X4: with a base setup that may end in several ways or not at all,
    [setup_ui] through the panel ends exactly when and as the base setup
    does, [set_defaults] always ends, in the one way of returning in the
    state it started from, and a run of hooks ends exactly as the run of its
    [setup_ui] calls alone does. *)
Theorem ends_as_base_ends base :
  (∀ w, (∃ o, invoke (CompSettings.cls base) SetupUi w o) ↔
        (∃ o, AbstractToolbarSettings.setup_ui base w o))
  ∧ (∀ w o, invoke (CompSettings.cls base) SetupUi w o ↔
            AbstractToolbarSettings.setup_ui base w o)
  ∧ (∀ w o, invoke (CompSettings.cls base) SetDefaults w o ↔
            o = Returned () w)
  ∧ (∀ hs w o,
      run_hooks (CompSettings.cls base) hs w o ↔
      run_hooks (CompSettings.cls base) (filter is_setup hs) w o).
Proof.
  split; [|split; [|split]].
  - intros w. split; intros [o Ho]; exists o; apply setup_ui_rel; exact Ho.
  - intros w o. apply setup_ui_rel.
  - intros w o. apply set_defaults_rel.
  - intros hs. induction hs as [|[] hs IH]; intros w o.
    + reflexivity.
    + change (filter is_setup (SetupUi :: hs))
        with (SetupUi :: filter is_setup hs).
      simpl. unfold mbind, Rel_bind. split.
      * intros [(a & w' & Hs & Hrun)|Hraise].
        -- left. exists a, w'. split; [exact Hs | apply IH; exact Hrun].
        -- right. exact Hraise.
      * intros [(a & w' & Hs & Hrun)|Hraise].
        -- left. exists a, w'. split; [exact Hs | apply IH; exact Hrun].
        -- right. exact Hraise.
    + rewrite run_hooks_rel_skip. apply IH.
Qed.
End Unending.

(** ** Whole runs on the base classes above *)

Lemma invariant_all_along_on_layout_base :
  within_slots layout_base (mkWorld (<["vlayout" := 0]> ∅) 1)
  ∧ within_slots layout_base
      (final_world
         (Returned (Exn := string) () (mkWorld (<["vlayout" := 0]> ∅) 1))).
Proof.
  assert (Hblank : within_slots layout_base blank).
  { unfold within_slots. simpl. rewrite dom_empty. apply empty_subseteq. }
  apply (invariant_all_along (within_slots layout_base) layout_base
           [SetupUi; SetDefaults] blank new_vlayout_keeps_slots Hblank
           SetDefaults).
  apply elem_of_cons. right. apply elem_of_cons. left. reflexivity.
Defined.

Lemma exception_comes_from_refusing_base :
  SetupUi ∈ [SetDefaults; SetupUi; SetDefaults]
  ∧ ∃ w0, AbstractToolbarSettings.setup_ui refusing_base w0 =
          Raised "RuntimeError" blank.
Proof.
  apply (exception_comes_from_base refusing_base
           [SetDefaults; SetupUi; SetDefaults] blank).
  reflexivity.
Defined.


Lemma hanging_setup_ui_never_ends :
  (¬ ∃ o, invoke (CompSettings.cls hanging_base) SetupUi blank o)
  ∧ invoke (CompSettings.cls hanging_base) SetDefaults blank
      (Returned () blank).
Proof.
  destruct (ends_as_base_ends hanging_base) as (Hends & _ & Hdefaults & _).
  split.
  - intros Hpanel. apply Hends in Hpanel. destruct Hpanel as [o []].
  - apply Hdefaults. reflexivity.
Defined.
